(** * Weather dashboard: the proxy endpoint and the dashboard view

    A shallow embedding of

    - [pages/api/weather.ts]  the proxy handler (the second copy of the
      handler in the repository differs from it by comments only), and
    - [pages/index.tsx]       the dashboard view, in its two variants
      (with the manual-entry form, and with the ring chart),

    followed by the properties of the two that the specification states.

    Conventions of the embedding.

    - A JavaScript [string] is a [string]; template literals are [++].
    - A [number] that carries a status or an error code is a [Z]; a
      [number] that carries a measurement decoded from JSON is a [Q]
      (JSON has literals for rationals only; the rounding of IEEE
      doubles is not part of the model).
    - [undefined] and [null] are [None].
    - [res.status(c).json(b)] records the status [c] and the body [b];
      the platform refuses a status outside 100..999, and the call then
      throws instead.
    - [console.error] has no effect on any value modelled here and is
      left out. *)

From Stdlib Require Import String Ascii List ZArith QArith Qround Bool Lia Lqa.
From Stdlib Require Import DecimalString.
Import ListNotations.

Local Open Scope string_scope.
Local Open Scope Z_scope.

(** ** JavaScript values *)

Module JS.

(** ECMAScript [ToBoolean], on the types the program tests. *)
Class ToBoolean (A : Type) := truthy : A -> bool.

#[global] Instance string_ToBoolean : ToBoolean string :=
  fun s => negb (String.eqb s "").

#[global] Instance number_ToBoolean : ToBoolean Z :=
  fun n => negb (n =? 0).

#[global] Instance option_ToBoolean {A} `{ToBoolean A} : ToBoolean (option A) :=
  fun o => match o with Some a => truthy a | None => false end.

(** [a || b] where [a] may be missing and [b] is a string. *)
Definition or_else (a : option string) (b : string) : string :=
  match a with
  | Some s => if truthy s then s else b
  | None => b
  end.

(** [`${n}`] for an integral number (decimal digits, a leading [-]
    below zero; JavaScript switches to exponent notation from 10^21). *)
Definition Number_toString (n : Z) : string :=
  NilZero.string_of_int (Z.to_int n).

(** [s] occurs in [t]. *)
Definition occurs_in (s t : string) : Prop :=
  exists pre post, t = pre ++ s ++ post.

End JS.

Import JS.

(** ** pages/api/weather.ts *)

Module Proxy.

(** A value of [req.query]: [string | string[] | undefined]. *)
Inductive QueryValue :=
| Undefined
| Str (s : string)
| Arr (l : list string).

#[global] Instance QueryValue_ToBoolean : ToBoolean QueryValue :=
  fun v => match v with
           | Undefined => false
           | Str s => truthy s
           | Arr _ => true
           end.

(** [typeof v === 'string'] *)
Definition is_string (v : QueryValue) : bool :=
  match v with Str _ => true | _ => false end.

(** [`${v}`] for a query value that is a string. *)
Definition text (v : QueryValue) : string :=
  match v with
  | Str s => s
  | Undefined => "undefined"
  | Arr l => String.concat "," l
  end.

(** [const { city, lat, lon } = req.query] *)
Record NextApiRequest := {
  city : QueryValue;
  lat : QueryValue;
  lon : QueryValue
}.

(** [process.env] *)
Record Env := { OPENWEATHER_API_KEY : option string }.

Record Condition := { description : string; icon : string }.
Record Main := { temp : Q; feels_like : Q; humidity : Q }.
Record Wind := { speed : Q }.

(** [type WeatherData].  [cod] is declared a number; the handler tests
    it for truthiness, which a body without the field fails too, so the
    field is optional here, like [message]. *)
Record WeatherData := {
  name : string;
  weather : list Condition;
  main : Main;
  wind : Wind;
  cod : option Z;
  message : option string
}.

(** What [res.json] is given: [WeatherData | { message: string }]. *)
Inductive Body :=
| JsonData (data : WeatherData)
| JsonMessage (message : string).

Record Response := { status : Z; body : Body }.

(** What is thrown inside the [try] block. *)
Inductive Exception :=
| NetworkError          (* [fetch] rejects *)
| SyntaxError.          (* [response.json()] rejects *)

(** The outcome of [await fetch(url)] followed by
    [await response.json()]. *)
Inductive Upstream :=
| Throws (e : Exception)
| Resolves (data : WeatherData).

Definition coordinates_url (lat lon apiKey : string) : string :=
  "https://api.openweathermap.org/data/2.5/weather?lat=" ++ lat
    ++ "&lon=" ++ lon ++ "&appid=" ++ apiKey ++ "&units=metric&lang=kr".

Definition city_url (city apiKey : string) : string :=
  "https://api.openweathermap.org/data/2.5/weather?q=" ++ city
    ++ "&appid=" ++ apiKey ++ "&units=metric&lang=kr".

(** The condition of the first branch of the [if] that builds [url]. *)
Definition coordinates_given (req : NextApiRequest) : bool :=
  truthy (lat req) && truthy (lon req)
    && is_string (lat req) && is_string (lon req).

(** The condition of its second branch. *)
Definition city_given (req : NextApiRequest) : bool :=
  truthy (city req) && is_string (city req).

(** The [if]/[else if]/[else] that assigns [url]; [None] is the [else]
    branch, which responds instead. *)
Definition build_url (apiKey : string) (req : NextApiRequest) : option string :=
  if coordinates_given req then
    Some (coordinates_url (text (lat req)) (text (lon req)) apiKey)
  else if city_given req then
    Some (city_url (text (city req)) apiKey)
  else None.

(** [res.status(c).json(b)]: the response written, or [None] when the
    platform throws because [c] is no status it can send. *)
Definition write (c : Z) (b : Body) : option Response :=
  if (100 <=? c) && (c <=? 999) then Some {| status := c; body := b |}
  else None.

(** The body of the [try] block once [data] is there: the response it
    writes, or [None] when writing it throws. *)
Definition relay (data : WeatherData) : option Response :=
  match cod data with
  | Some c =>
      if truthy c && negb (c =? 200) then
        write c
          (JsonMessage
             (or_else (message data)
                      ("OpenWeatherMap API Error: " ++ Number_toString c)))
      else write 200 (JsonData data)
  | None => write 200 (JsonData data)
  end.

(** The [try] block with its [catch]: whatever is thrown inside, by
    [fetch], by [response.json()] or by the write of the relayed
    status, is answered by the [catch] block. *)
Definition tried (outcome : Upstream) : Response :=
  let caught :=
    {| status := 500;
       body := JsonMessage "Internal Server Error or Network Issue" |} in
  match outcome with
  | Throws _ => caught
  | Resolves data =>
      match relay data with
      | Some written => written
      | None => caught
      end
  end.

(** [`${apiKey}`] *)
Definition key_text (apiKey : option string) : string :=
  match apiKey with Some k => k | None => "undefined" end.

(** [handler].  [fetch] stands for the provider: what
    [await fetch(url)] and [await response.json()] yield for a URL.
    The result is the response written to [res] and the URLs fetched,
    in order. *)
Definition handler (env : Env) (req : NextApiRequest)
    (fetch : string -> Upstream) : Response * list string :=
  let apiKey := OPENWEATHER_API_KEY env in
  if negb (truthy apiKey) then
    ({| status := 500; body := JsonMessage "API Key not configured" |}, [])
  else
    match build_url (key_text apiKey) req with
    | None =>
        ({| status := 400;
            body := JsonMessage
              "City or latitude/longitude query parameters are required" |},
         [])
    | Some url => (tried (fetch url), [url])
    end.

(** A query parameter that is there, as one non-empty string. *)
Definition present_string (v : QueryValue) : Prop :=
  exists s, v = Str s /\ s <> "".

(** An upstream request keyed by coordinates, and one keyed by name. *)
Definition coordinate_keyed (url : string) : Prop :=
  exists lat lon apiKey, url = coordinates_url lat lon apiKey.


(** The two messages the handler writes with status 500 on its own. *)
Definition not_configured : Response :=
  {| status := 500; body := JsonMessage "API Key not configured" |}.

Definition network_issue : Response :=
  {| status := 500; body := JsonMessage "Internal Server Error or Network Issue" |}.

End Proxy.

(** ** pages/index.tsx, the variant with the manual-entry form *)

Module HomePage.

(** The component's state, one field per [useState].  [weather] holds
    the decoded body as it came. *)
Record State := {
  city : string;
  weather : option Proxy.Body;
  loading : bool;
  error : option string;
  locationLoading : bool;
  locationError : option string
}.

(** The [Response] of the browser's [fetch]: its [ok] flag, and what
    [response.json()] resolves to ([None]: it rejects). *)
Record FetchResponse := { ok : bool; json : option Proxy.Body }.

Inductive Fetched :=
| Rejected
| Fulfilled (response : FetchResponse).

Inductive Exception :=
| FetchFailed
| NotJson.

(** A request on the wire, with the state the view shows while the
    function is suspended on it. *)
Record Request := { url : string; shown : State }.

Record World := { view : State; requests : list Request }.

Inductive Completion (A : Type) :=
| Normal (a : A)
| Throw (e : Exception).
Arguments Normal {A} a.
Arguments Throw {A} e.

(** An [async] function body: it runs on the view's state, fetches,
    and completes normally or throws. *)
Definition Async (A : Type) : Type := World -> Completion A * World.

Definition ret {A} (a : A) : Async A := fun w => (Normal a, w).

Definition bind {A B} (c : Async A) (k : A -> Async B) : Async B :=
  fun w => match c w with
           | (Normal a, w') => k a w'
           | (Throw e, w') => (Throw e, w')
           end.

Definition throw {A} (e : Exception) : Async A := fun w => (Throw e, w).

Definition modify (f : State -> State) : Async unit :=
  fun w => (Normal tt, {| view := f (view w); requests := requests w |}).

Definition get : Async State := fun w => (Normal (view w), w).

(** [try { body } catch (err) { handler } finally { finalizer }] *)
Definition try_catch_finally {A} (body : Async A)
    (handler : Exception -> Async A) (finalizer : Async unit) : Async A :=
  fun w =>
    let (r, w1) :=
      match body w with
      | (Normal a, w') => (Normal a, w')
      | (Throw e, w') => handler e w'
      end in
    match finalizer w1 with
    | (Normal _, w2) => (r, w2)
    | (Throw e, w2) => (Throw e, w2)
    end.

Declare Scope async_scope.
Delimit Scope async_scope with async.
Notation "x <- c ;; k" := (bind c (fun x => k))
  (at level 61, c at next level, right associativity) : async_scope.
Notation "c ;; k" := (bind c (fun _ => k))
  (at level 61, right associativity) : async_scope.
Local Open Scope async_scope.

Definition setCity (v : string) : Async unit :=
  modify (fun s => {| city := v; weather := weather s; loading := loading s;
                      error := error s; locationLoading := locationLoading s;
                      locationError := locationError s |}).

Definition setWeather (v : option Proxy.Body) : Async unit :=
  modify (fun s => {| city := city s; weather := v; loading := loading s;
                      error := error s; locationLoading := locationLoading s;
                      locationError := locationError s |}).

Definition setLoading (v : bool) : Async unit :=
  modify (fun s => {| city := city s; weather := weather s; loading := v;
                      error := error s; locationLoading := locationLoading s;
                      locationError := locationError s |}).

Definition setError (v : option string) : Async unit :=
  modify (fun s => {| city := city s; weather := weather s; loading := loading s;
                      error := v; locationLoading := locationLoading s;
                      locationError := locationError s |}).

Definition setLocationLoading (v : bool) : Async unit :=
  modify (fun s => {| city := city s; weather := weather s; loading := loading s;
                      error := error s; locationLoading := v;
                      locationError := locationError s |}).

Definition setLocationError (v : option string) : Async unit :=
  modify (fun s => {| city := city s; weather := weather s; loading := loading s;
                      error := error s; locationLoading := locationLoading s;
                      locationError := v |}).

(** [data.message] *)
Definition message_of (data : Proxy.Body) : option string :=
  match data with
  | Proxy.JsonData d => Proxy.message d
  | Proxy.JsonMessage m => Some m
  end.

(** The web platform's [GeolocationPositionError] codes. *)
Definition PERMISSION_DENIED : Z := 1.
Definition POSITION_UNAVAILABLE : Z := 2.
Definition TIMEOUT : Z := 3.

(** The [switch (err.code)] of the geolocation error callback. *)
Definition errorMessage (code : Z) : string :=
  if code =? PERMISSION_DENIED then "위치 정보 제공을 허용해주세요."
  else if code =? POSITION_UNAVAILABLE then "사용 가능한 위치 정보가 없습니다."
  else if code =? TIMEOUT then "위치 정보 요청 시간이 초과되었습니다."
  else "알 수 없는 위치 정보 오류가 발생했습니다. (코드: "
         ++ Number_toString code ++ ")".

(** The geolocation error callback. *)
Definition onPositionError (code : Z) : Async unit :=
  setLocationError (Some (errorMessage code)) ;;
  setLocationLoading false.

Section Network.

(** The proxy as the browser reaches it. *)
Variable fetch : string -> Fetched.

(** [`${x}`] for a coordinate (ECMAScript [Number::toString]). *)
Variable coordinate_text : Q -> string.

(** [await fetch(url)] *)
Definition await_fetch (u : string) : Async FetchResponse :=
  fun w =>
    let w' := {| view := view w;
                 requests := requests w ++ [{| url := u; shown := view w |}] |} in
    match fetch u with
    | Fulfilled r => (Normal r, w')
    | Rejected => (Throw FetchFailed, w')
    end.

(** [await response.json()] *)
Definition await_json (r : FetchResponse) : Async Proxy.Body :=
  match json r with
  | Some data => ret data
  | None => throw NotJson
  end.

Definition fetchWeatherByCoords (latitude longitude : Q) : Async unit :=
  setLoading true ;;
  setError None ;;
  setWeather None ;;
  try_catch_finally
    (response <- await_fetch ("/api/weather?lat=" ++ coordinate_text latitude
                                ++ "&lon=" ++ coordinate_text longitude) ;;
     data <- await_json response ;;
     if ok response then
       setWeather (Some data) ;;
       setCity ""
     else
       setError (Some (or_else (message_of data)
                         "위치 기반 날씨 정보를 가져오는데 실패했습니다.")))
    (fun err =>
       setError (Some "날씨 정보를 가져오는 중 예상치 못한 오류가 발생했습니다."))
    (setLoading false).

Definition fetchWeatherByCity (cityName : string) : Async unit :=
  if negb (truthy cityName) then ret tt
  else
    setLoading true ;;
    setError None ;;
    setWeather None ;;
    try_catch_finally
      (response <- await_fetch ("/api/weather?city=" ++ cityName) ;;
       data <- await_json response ;;
       if ok response then
         setWeather (Some data)
       else
         setError (Some (or_else (message_of data)
                           "도시 이름으로 날씨 정보를 가져오는데 실패했습니다.")))
      (fun err =>
         setError (Some "날씨 정보를 가져오는 중 예상치 못한 오류가 발생했습니다."))
      (setLoading false).

(** [handleSearch]: the form's submit handler ([e.preventDefault()]
    touches nothing modelled here). *)
Definition handleSearch : Async unit :=
  s <- get ;;
  fetchWeatherByCity (city s).

End Network.

(** What the view shows from the start of a fetch cycle until its
    response is there. *)
Definition awaiting (s : State) : State :=
  {| city := city s; weather := None; loading := true; error := None;
     locationLoading := locationLoading s;
     locationError := locationError s |}.

(** The decoded body [data] has the message [m]: it is a message body
    with that text, or weather data with that [message] field. *)
Definition carries (data : Proxy.Body) (m : string) : Prop :=
  data = Proxy.JsonMessage m
  \/ exists d, data = Proxy.JsonData d /\ Proxy.message d = Some m.

(** One fetch cycle of [run] over the request [u]: [run] completes
    normally, after exactly that request, issued while the view showed
    [awaiting]; it leaves [loading] cleared; a response that is [ok]
    sets the result; one that is not sets the error to the message its
    body has, when that is not empty, and to [fallback] when the body
    has no message or an empty one; a fetch or a decoding that throws
    sets the generic error. *)
Definition fetch_cycle (fetch : string -> Fetched) (run : Async unit)
    (u fallback : string) (w : World) : Prop :=
  exists s',
    run w = (Normal tt,
             {| view := s';
                requests := requests w
                              ++ [{| url := u; shown := awaiting (view w) |}] |})
    /\ loading s' = false
    /\ match fetch u with
       | Fulfilled {| ok := true; json := Some data |} =>
           weather s' = Some data /\ error s' = None
       | Fulfilled {| ok := false; json := Some data |} =>
           weather s' = None
           /\ (forall m, carries data m -> m <> "" -> error s' = Some m)
           /\ ((forall m, carries data m -> m = "") ->
               error s' = Some fallback)
       | _ =>
           weather s' = None
           /\ error s' =
              Some "날씨 정보를 가져오는 중 예상치 못한 오류가 발생했습니다."
       end.

(** The initial values of the six [useState] calls. *)
Definition initialState : State :=
  {| city := ""; weather := None; loading := false; error := None;
     locationLoading := true; locationError := None |}.

(** [disabled={loading || locationLoading}], on the form's input and
    on its button. *)
Definition formDisabled (s : State) : bool := loading s || locationLoading s.

(** The [else] branch of the effect: the browser has no
    [navigator.geolocation]. *)
Definition geolocationUnsupported : Async unit :=
  setLocationError (Some "이 브라우저는 위치 정보 기능을 지원하지 않습니다.") ;;
  setLocationLoading false.

(** What the result panel interpolates, in the order of the JSX. *)
Record Panel := {
  heading : string;             (* [weather.name] *)
  condition : string;           (* [weather.weather[0].description] *)
  temperature : Q;              (* [weather.main.temp] *)
  feelsLike : Q;                (* [weather.main.feels_like] *)
  humidityPercent : Q;          (* [weather.main.humidity] *)
  windSpeed : Q;                (* [weather.wind.speed] *)
  imageSrc : string;
  imageAlt : string
}.

Inductive Rendered :=
| RenderThrows                  (* a [TypeError] while rendering *)
| RenderNothing
| RenderPanel (p : Panel).

(** [{weather && ( ... )}].  Reading [weather.weather[0].description]
    throws when [weather.weather] is missing or empty. *)
Definition weatherPanel (s : State) : Rendered :=
  match weather s with
  | None => RenderNothing
  | Some (Proxy.JsonMessage _) => RenderThrows
  | Some (Proxy.JsonData d) =>
      match Proxy.weather d with
      | [] => RenderThrows
      | first :: _ =>
          RenderPanel
            {| heading := Proxy.name d;
               condition := Proxy.description first;
               temperature := Proxy.temp (Proxy.main d);
               feelsLike := Proxy.feels_like (Proxy.main d);
               humidityPercent := Proxy.humidity (Proxy.main d);
               windSpeed := Proxy.speed (Proxy.wind d);
               imageSrc := "http://openweathermap.org/img/wn/"
                             ++ Proxy.icon first ++ "@2x.png";
               imageAlt := Proxy.description first |}
      end
  end.

End HomePage.

(** ** pages/index.tsx, the variant with the ring chart *)

Module HomePageChart.

Record State := {
  weather : option Proxy.Body;
  loading : bool;
  error : option string;
  locationLoading : bool;
  locationError : option string
}.

Definition PERMISSION_DENIED : Z := 1.
Definition POSITION_UNAVAILABLE : Z := 2.
Definition TIMEOUT : Z := 3.

(** The [switch (err.code)] of the geolocation error callback. *)
Definition errorMessage (code : Z) : string :=
  if code =? PERMISSION_DENIED then "위치 정보 제공을 허용해주세요."
  else if code =? POSITION_UNAVAILABLE then "사용 가능한 위치 정보가 없습니다."
  else if code =? TIMEOUT then "위치 정보 요청 시간이 초과되었습니다."
  else "알 수 없는 위치 정보 오류가 발생했습니다. (코드: "
         ++ Number_toString code ++ ")".

(** The geolocation error callback. *)
Definition onPositionError (code : Z) (s : State) : State :=
  {| weather := weather s; loading := loading s; error := error s;
     locationLoading := false;
     locationError := Some (errorMessage code) |}.

Local Open Scope Q_scope.

Definition Math_min (a b : Q) : Q := if Qle_bool a b then a else b.
Definition Math_max (a b : Q) : Q := if Qle_bool a b then b else a.

(** [Math.round]: the nearest integer, a half going up. *)
Definition Math_round (x : Q) : Z := Qfloor (x + (1 # 2)).

(** [calculateTemperaturePercentage], in exact arithmetic.  The code
    computes in IEEE doubles, whose last bit decides the result where
    the exact value is within about 10^-14 of a half (14.5 degrees, for
    one); the properties below are stated so as not to depend on it. *)
Definition calculateTemperaturePercentage (temp : option Q) : option Z :=
  match temp with
  | None => None
  | Some temp =>
      let minTemp := - (20 # 1) in
      let maxTemp := 40 # 1 in
      let range := maxTemp - minTemp in
      let clampedTemp := Math_max minTemp (Math_min maxTemp temp) in
      let percentage := ((clampedTemp - minTemp) / range) * (100 # 1) in
      Some (Math_round percentage)
  end.

Definition setWeather (v : option Proxy.Body) (s : State) : State :=
  {| weather := v; loading := loading s; error := error s;
     locationLoading := locationLoading s; locationError := locationError s |}.

Definition setLoading (v : bool) (s : State) : State :=
  {| weather := weather s; loading := v; error := error s;
     locationLoading := locationLoading s; locationError := locationError s |}.

Definition setError (v : option string) (s : State) : State :=
  {| weather := weather s; loading := loading s; error := v;
     locationLoading := locationLoading s; locationError := locationError s |}.

(** A request on the wire, with the state the view shows meanwhile. *)
Record Request := { url : string; shown : State }.

(** [fetchWeatherByCoords] of this variant, by state passing: the final
    state and the requests issued.  The [catch] block is the two
    branches in which [fetch] or [response.json()] rejects; the
    [finally] block is the last [setLoading]. *)
Definition fetchWeatherByCoords (fetch : string -> HomePage.Fetched)
    (coordinate_text : Q -> string) (latitude longitude : Q) (s : State)
    : State * list Request :=
  let s := setLoading true s in
  let s := setError None s in
  let s := setWeather None s in
  let u := ("/api/weather?lat=" ++ coordinate_text latitude
              ++ "&lon=" ++ coordinate_text longitude)%string in
  let unexpected :=
    setError (Some "날씨 정보를 가져오는 중 예상치 못한 오류가 발생했습니다.") s in
  let tried :=
    match fetch u with
    | HomePage.Rejected => unexpected
    | HomePage.Fulfilled response =>
        match HomePage.json response with
        | None => unexpected
        | Some data =>
            if HomePage.ok response then setWeather (Some data) s
            else setError
                   (Some (or_else (HomePage.message_of data)
                            "위치 기반 날씨 정보를 가져오는데 실패했습니다.")) s
        end
    end in
  (setLoading false tried, [{| url := u; shown := s |}]).

Record Dataset := {
  data : list Z;
  backgroundColor : list string;
  borderColor : list string;
  borderWidth : Z
}.

Record ChartData := { labels : list string; datasets : list Dataset }.

(** [chartData], as a function of [temperaturePercentage]. *)
Definition chartData (temperaturePercentage : option Z) : option ChartData :=
  match temperaturePercentage with
  | None => None
  | Some temperaturePercentage =>
      Some {| labels := ["현재 온도"%string];
              datasets :=
                [{| data := [temperaturePercentage;
                             (100 - temperaturePercentage)%Z];
                    backgroundColor := ["rgba(54, 162, 235, 0.6)"%string;
                                        "rgba(200, 200, 200, 0.6)"%string];
                    borderColor := ["rgba(54, 162, 235, 1)"%string;
                                    "rgba(200, 200, 200, 1)"%string];
                    borderWidth := 1%Z |}] |}
  end.

(** This variant's state as a state of the variant with the form, whose
    [city] field it lacks. *)
Definition with_city (c : string) (s : State) : HomePage.State :=
  {| HomePage.city := c;
     HomePage.weather := weather s;
     HomePage.loading := loading s;
     HomePage.error := error s;
     HomePage.locationLoading := locationLoading s;
     HomePage.locationError := locationError s |}.

End HomePageChart.


(** ** Sample inputs *)

Module Samples.

Import Proxy.

Definition configured : Env := {| OPENWEATHER_API_KEY := Some "0123456789abcdef" |}.
Definition unconfigured : Env := {| OPENWEATHER_API_KEY := None |}.

Definition no_parameters : NextApiRequest :=
  {| city := Undefined; lat := Undefined; lon := Undefined |}.

Definition seoul_by_name : NextApiRequest :=
  {| city := Str "Seoul"; lat := Undefined; lon := Undefined |}.

Definition seoul_by_position : NextApiRequest :=
  {| city := Undefined; lat := Str "37.57"; lon := Str "126.98" |}.


Definition seoul (c : option Z) (m : option string) : WeatherData :=
  {| name := "Seoul";
     weather := [{| description := "맑음"; icon := "01d" |}];
     main := {| temp := 21 # 1; feels_like := 20 # 1; humidity := 40 # 1 |};
     wind := {| speed := 3 # 2 |};
     cod := c;
     message := m |}.

(** A body with no entry in its [weather] list. *)
Definition empty_conditions : WeatherData :=
  {| name := "Seoul";
     weather := [];
     main := {| temp := 21 # 1; feels_like := 20 # 1; humidity := 40 # 1 |};
     wind := {| speed := 3 # 2 |};
     cod := Some 200;
     message := None |}.

(** A provider that answers every URL with the same body. *)
Definition provider (data : WeatherData) : string -> Upstream :=
  fun _ => Resolves data.

(** A provider that cannot be reached, or answers with something that is
    not JSON. *)
Definition failing (e : Exception) : string -> Upstream :=
  fun _ => Throws e.

(** The view with a result on display, before a new search. *)
Definition showing_seoul (typed : string) : HomePage.World :=
  {| HomePage.view :=
       {| HomePage.city := typed;
          HomePage.weather := Some (JsonData (seoul (Some 200) None));
          HomePage.loading := false;
          HomePage.error := Some "오류";
          HomePage.locationLoading := false;
          HomePage.locationError := None |};
     HomePage.requests := [] |}.

(** The proxy's answer to a city the provider does not know. *)
Definition city_not_found : HomePage.Fetched :=
  HomePage.Fulfilled
    {| HomePage.ok := false;
       HomePage.json := Some (JsonMessage "city not found") |}.

(** A proxy that answers every request the same way. *)
Definition proxy (answer : HomePage.Fetched) : string -> HomePage.Fetched :=
  fun _ => answer.

(** A rendering of coordinates, for the samples: whole degrees. *)
Definition whole_degrees (x : Q) : string := Number_toString (Qfloor x).

End Samples.

(** * Properties of the proxy endpoint *)

Module ProxyFacts.

Import Proxy.

Lemma truthy_string (s : string) : truthy s = true <-> s <> "".
Proof.
  unfold truthy, string_ToBoolean.
  rewrite negb_true_iff. split.
  - intros H ->. discriminate.
  - intros H. apply String.eqb_neq. exact H.
Qed.

Lemma truthy_key (o : option string) :
  truthy o = true <-> exists k, o = Some k /\ k <> "".
Proof.
  destruct o as [k|]; cbn.
  - rewrite (truthy_string k). split.
    + intros H. exists k. split; [reflexivity | exact H].
    + intros (k' & [= <-] & H). exact H.
  - split; [discriminate | intros (k & [=] & _)].
Qed.

Lemma truthy_number (n : Z) : truthy n = true <-> n <> 0.
Proof.
  unfold truthy, number_ToBoolean.
  rewrite negb_true_iff. apply Z.eqb_neq.
Qed.

Lemma or_else_present (m fallback : string) :
  m <> "" -> or_else (Some m) fallback = m.
Proof.
  intros H. unfold or_else.
  apply truthy_string in H. rewrite H. reflexivity.
Qed.



Lemma append_assoc (s t u : string) : (s ++ t) ++ u = s ++ t ++ u.
Proof. induction s as [|c s IH]; cbn; [reflexivity | now rewrite IH]. Qed.




Lemma city_url_not_coordinate_keyed (c k : string) :
  ~ coordinate_keyed (city_url c k).
Proof.
  intros (la & lo & k' & H). unfold coordinates_url, city_url in H.
  cbn in H. discriminate H.
Qed.

Lemma coordinates_given_iff (req : NextApiRequest) :
  coordinates_given req = true <->
  exists la lo, lat req = Str la /\ la <> "" /\ lon req = Str lo /\ lo <> "".
Proof.
  unfold coordinates_given. split.
  - intros H. apply andb_prop in H as [H H4]. apply andb_prop in H as [H H3].
    apply andb_prop in H as [H1 H2].
    destruct (lat req) as [|la|]; try discriminate.
    destruct (lon req) as [|lo|]; try discriminate.
    cbn in H1, H2. exists la, lo.
    repeat split; try reflexivity; now apply truthy_string.
  - intros (la & lo & -> & Hla & -> & Hlo). cbn.
    apply truthy_string in Hla, Hlo. now rewrite Hla, Hlo.
Qed.

Lemma city_given_iff (req : NextApiRequest) :
  city_given req = true <-> exists c, city req = Str c /\ c <> "".
Proof.
  unfold city_given. split.
  - intros H. apply andb_prop in H as [H1 H2].
    destruct (city req) as [|c|]; try discriminate.
    exists c. split; [reflexivity | now apply truthy_string].
  - intros (c & -> & Hc). cbn. apply truthy_string in Hc. now rewrite Hc.
Qed.

Lemma handler_unconfigured (env : Env) (req : NextApiRequest)
    (fetch : string -> Upstream) :
  truthy (OPENWEATHER_API_KEY env) = false ->
  handler env req fetch = (not_configured, []).
Proof. intros H. unfold handler. rewrite H. reflexivity. Qed.

Lemma handler_configured (env : Env) (req : NextApiRequest)
    (fetch : string -> Upstream) (k : string) :
  OPENWEATHER_API_KEY env = Some k -> k <> "" ->
  handler env req fetch =
  match build_url k req with
  | None =>
      ({| status := 400;
          body := JsonMessage
            "City or latitude/longitude query parameters are required" |}, [])
  | Some url => (tried (fetch url), [url])
  end.
Proof.
  intros Hk Hne. unfold handler. rewrite Hk. cbn.
  apply truthy_string in Hne. rewrite Hne. reflexivity.
Qed.

(** Whatever was fetched was built from a configured key. *)
Lemma handler_called (env : Env) (req : NextApiRequest)
    (fetch : string -> Upstream) (url : string) :
  In url (snd (handler env req fetch)) ->
  exists k, OPENWEATHER_API_KEY env = Some k /\ k <> ""
            /\ build_url k req = Some url
            /\ handler env req fetch = (tried (fetch url), [url]).
Proof.
  intros Hin.
  destruct (truthy (OPENWEATHER_API_KEY env)) eqn:Hkey.
  - apply truthy_key in Hkey as (k & Hk & Hne). exists k.
    rewrite (handler_configured env req fetch k Hk Hne) in *.
    destruct (build_url k req) as [u|]; cbn in Hin; [|contradiction].
    destruct Hin as [<- | []]. auto.
  - rewrite (handler_unconfigured env req fetch Hkey) in Hin. contradiction.
Qed.

Lemma tried_throws (e : Exception) : tried (Throws e) = network_issue.
Proof. reflexivity. Qed.

(** What the [try] block answers to a body, by its embedded code: the
    code relayed, the write refused, or the body passed on. *)
Lemma tried_cases (data : WeatherData) :
  (exists c,
      cod data = Some c /\ c <> 0 /\ c <> 200 /\ 100 <= c <= 999
      /\ tried (Resolves data) =
         {| status := c;
            body := JsonMessage
                      (or_else (message data)
                         ("OpenWeatherMap API Error: " ++ Number_toString c)) |})
  \/ (exists c,
         cod data = Some c /\ c <> 0 /\ (c < 100 \/ 999 < c)
         /\ tried (Resolves data) = network_issue)
  \/ ((cod data = None \/ cod data = Some 0 \/ cod data = Some 200)
      /\ tried (Resolves data) = {| status := 200; body := JsonData data |}).
Proof.
  unfold tried, relay. destruct (cod data) as [c|]; [| right; right; auto].
  destruct (Z.eq_dec c 0) as [-> | H0]; [right; right; auto |].
  destruct (Z.eq_dec c 200) as [-> | H200]; [right; right; auto |].
  pose proof H0 as T. apply truthy_number in T.
  pose proof H200 as E. apply Z.eqb_neq in E.
  rewrite T, E. cbn [andb negb]. unfold write.
  destruct ((100 <=? c) && (c <=? 999)) eqn:Hr.
  - left. exists c. apply andb_prop in Hr as [H1 H2].
    apply Z.leb_le in H1, H2. repeat split; assumption.
  - right. left. exists c. apply andb_false_iff in Hr.
    split; [reflexivity |]. split; [exact H0 |]. split; [| reflexivity].
    destruct Hr as [Hr | Hr]; apply Z.leb_gt in Hr; [left | right]; exact Hr.
Qed.

Import Samples.






(** C4.  With the credential configured, a request that lacks a city
    and lacks a coordinate pair ([lat] and [lon] both there) is answered
    400 with the message "City or latitude/longitude query parameters
    are required", and nothing is fetched. *)
Theorem missing_parameters_rejected (env : Env) (req : NextApiRequest)
    (fetch : string -> Upstream) :
  truthy (OPENWEATHER_API_KEY env) = true ->
  ~ present_string (city req) ->
  ~ (present_string (lat req) /\ present_string (lon req)) ->
  handler env req fetch =
  ({| status := 400;
      body := JsonMessage
        "City or latitude/longitude query parameters are required" |}, []).
Proof.
  intros Hkey Hcity Hpair.
  apply truthy_key in Hkey as (k & Hk & Hne).
  rewrite (handler_configured env req fetch k Hk Hne).
  unfold build_url.
  destruct (coordinates_given req) eqn:Hc.
  - exfalso. apply Hpair.
    apply coordinates_given_iff in Hc as (la & lo & Hla & Hla' & Hlo & Hlo').
    split; [exists la | exists lo]; auto.
  - destruct (city_given req) eqn:Hg; [| reflexivity].
    exfalso. apply Hcity. now apply city_given_iff.
Qed.

Lemma missing_parameters_rejected_witness :
  handler configured no_parameters (failing NetworkError) =
  ({| status := 400;
      body := JsonMessage
        "City or latitude/longitude query parameters are required" |}, []).
Proof.
  apply (missing_parameters_rejected configured no_parameters
           (failing NetworkError)).
  - reflexivity.
  - intros (s & Hs & _). discriminate Hs.
  - intros [(s & Hs & _) _]. discriminate Hs.
Defined.



(** C6.  The key does not flow into the response: for any two
    configured keys, if the provider's answers to the two upstream
    requests are the same, the handler writes the same response; the key
    itself occurs in every URL the handler fetches. *)
Theorem response_independent_of_key (req : NextApiRequest) (k1 k2 : string)
    (fetch1 fetch2 : string -> Upstream) :
  k1 <> "" -> k2 <> "" ->
  (forall url1 url2,
      build_url k1 req = Some url1 -> build_url k2 req = Some url2 ->
      fetch1 url1 = fetch2 url2) ->
  fst (handler {| OPENWEATHER_API_KEY := Some k1 |} req fetch1)
  = fst (handler {| OPENWEATHER_API_KEY := Some k2 |} req fetch2)
  /\ (forall url,
         In url (snd (handler {| OPENWEATHER_API_KEY := Some k1 |} req fetch1)) ->
         occurs_in k1 url).
Proof.
  intros H1 H2 Hsame.
  rewrite (handler_configured {| OPENWEATHER_API_KEY := Some k1 |}
             req fetch1 k1 eq_refl H1).
  rewrite (handler_configured {| OPENWEATHER_API_KEY := Some k2 |}
             req fetch2 k2 eq_refl H2).
  unfold build_url in *.
  destruct (coordinates_given req); [| destruct (city_given req)];
    cbn [fst snd].
  - split.
    + now rewrite (Hsame _ _ eq_refl eq_refl).
    + intros url [<- | []]. unfold coordinates_url.
      exists ("https://api.openweathermap.org/data/2.5/weather?lat="
                ++ text (lat req) ++ "&lon=" ++ text (lon req) ++ "&appid="),
             "&units=metric&lang=kr".
      now rewrite !append_assoc.
  - split.
    + now rewrite (Hsame _ _ eq_refl eq_refl).
    + intros url [<- | []]. unfold city_url.
      exists ("https://api.openweathermap.org/data/2.5/weather?q="
                ++ text (city req) ++ "&appid="),
             "&units=metric&lang=kr".
      now rewrite !append_assoc.
  - split; [reflexivity | intros url []].
Qed.

Lemma response_independent_of_key_witness :
  fst (handler {| OPENWEATHER_API_KEY := Some "0123456789abcdef" |}
         seoul_by_name (provider (seoul (Some 200) None)))
  = fst (handler {| OPENWEATHER_API_KEY := Some "fedcba9876543210" |}
           seoul_by_name (provider (seoul (Some 200) None))).
Proof.
  apply (response_independent_of_key seoul_by_name
           "0123456789abcdef" "fedcba9876543210"
           (provider (seoul (Some 200) None))
           (provider (seoul (Some 200) None)));
    [discriminate | discriminate | reflexivity].
Defined.

(** C9.  The configuration check comes first: with the credential
    missing, every request, also one with neither a city nor
    coordinates, is answered 500 "API Key not configured", and nothing
    is fetched. *)
Theorem configuration_checked_first (env : Env) (req : NextApiRequest)
    (fetch : string -> Upstream) :
  truthy (OPENWEATHER_API_KEY env) = false ->
  handler env req fetch =
  ({| status := 500; body := JsonMessage "API Key not configured" |}, []).
Proof. intros H. now rewrite handler_unconfigured. Qed.

Lemma configuration_checked_first_witness :
  handler unconfigured no_parameters (provider (seoul (Some 200) None)) =
  ({| status := 500; body := JsonMessage "API Key not configured" |}, []).
Proof.
  apply (configuration_checked_first unconfigured no_parameters
           (provider (seoul (Some 200) None))).
  reflexivity.
Defined.

End ProxyFacts.

(** * Properties of the dashboard view *)

Module ViewFacts.

Import HomePage.

(** [data.message || fallback], told by what the body has. *)
Lemma or_else_carries (data : Proxy.Body) (fallback : string) :
  (forall m, carries data m -> m <> "" ->
             or_else (message_of data) fallback = m)
  /\ ((forall m, carries data m -> m = "") ->
      or_else (message_of data) fallback = fallback).
Proof.
  split.
  - intros m [-> | (d & -> & Hd)] Hne; cbn; [| rewrite Hd];
      now apply ProxyFacts.or_else_present.
  - intros Hall. destruct data as [d | m]; cbn.
    + destruct (Proxy.message d) as [m|] eqn:Hd; [| reflexivity].
      rewrite (Hall m); [reflexivity |]. right. exists d. auto.
    + rewrite (Hall m); [reflexivity |]. now left.
Qed.

(** The cycle shared by the two fetch functions, for any request URL,
    fallback and success continuation that only touches the view. *)
Section Cycle.

Variable fetch : string -> Fetched.
Variables u fallback : string.
Variable on_success : Proxy.Body -> Async unit.
Variable after_success : Proxy.Body -> State -> State.

Hypothesis on_success_run : forall data w,
  on_success data w
  = (Normal tt, {| view := after_success data (view w); requests := requests w |}).
Hypothesis after_success_weather : forall data s,
  weather (after_success data s) = Some data.
Hypothesis after_success_error : forall data s,
  error (after_success data s) = error s.

Lemma cycle_body (w : World) :
  fetch_cycle fetch
    (bind (setLoading true) (fun _ =>
     bind (setError None) (fun _ =>
     bind (setWeather None) (fun _ =>
     try_catch_finally
       (bind (await_fetch fetch u) (fun response =>
        bind (await_json response) (fun data =>
        if ok response then on_success data
        else setError (Some (or_else (message_of data) fallback)))))
       (fun _ =>
          setError
            (Some "날씨 정보를 가져오는 중 예상치 못한 오류가 발생했습니다."))
       (setLoading false)))))
    u fallback w.
Proof.
  unfold fetch_cycle, try_catch_finally, bind, await_fetch, await_json.
  cbn. destruct (fetch u) as [| [[|] [data|]]]; cbn.
  - eexists. split; [reflexivity |]. cbn. auto.
  - rewrite on_success_run. cbn. eexists. split; [reflexivity |]. cbn.
    rewrite after_success_weather, after_success_error. cbn. auto.
  - eexists. split; [reflexivity |]. cbn. auto.
  - eexists. split; [reflexivity |]. cbn.
    split; [reflexivity |]. split; [reflexivity |].
    destruct (or_else_carries data fallback) as [H1 H2]. split.
    + intros m Hm Hne. now rewrite (H1 m Hm Hne).
    + intros Hall. now rewrite (H2 Hall).
  - eexists. split; [reflexivity |]. cbn. auto.
Qed.

End Cycle.

Import Samples.

(** C8.  A fetch by coordinates, and a fetch by a city name that is not
    empty, is one cycle: the function completes normally whatever the
    proxy does (nothing is thrown to the caller), after one request
    issued with [loading] set and the earlier error and result cleared;
    a response that is [ok] sets the result, one that is not sets the
    error to the proxy's message or else the fallback, a rejected fetch
    or an undecodable body sets the generic error; [loading] ends
    cleared in each case. *)
Theorem fetch_is_one_cycle (fetch : string -> Fetched)
    (coordinate_text : Q -> string) (latitude longitude : Q)
    (cityName : string) (w : World) :
  cityName <> "" ->
  fetch_cycle fetch
    (fetchWeatherByCoords fetch coordinate_text latitude longitude)
    ("/api/weather?lat=" ++ coordinate_text latitude
       ++ "&lon=" ++ coordinate_text longitude)
    "위치 기반 날씨 정보를 가져오는데 실패했습니다." w
  /\ fetch_cycle fetch
       (fetchWeatherByCity fetch cityName)
       ("/api/weather?city=" ++ cityName)
       "도시 이름으로 날씨 정보를 가져오는데 실패했습니다." w.
Proof.
  intros Hname. split.
  - unfold fetchWeatherByCoords.
    apply (cycle_body fetch _ _
             (fun data => bind (setWeather (Some data)) (fun _ => setCity ""))
             (fun data s =>
                {| city := ""; weather := Some data; loading := loading s;
                   error := error s; locationLoading := locationLoading s;
                   locationError := locationError s |}));
      reflexivity.
  - unfold fetchWeatherByCity.
    apply ProxyFacts.truthy_string in Hname. rewrite Hname. cbn [negb].
    apply (cycle_body fetch _ _
             (fun data => setWeather (Some data))
             (fun data s =>
                {| city := city s; weather := Some data; loading := loading s;
                   error := error s; locationLoading := locationLoading s;
                   locationError := locationError s |}));
      reflexivity.
Qed.

Lemma fetch_is_one_cycle_witness :
  fst (fetchWeatherByCity (proxy city_not_found) "Atlantis"
         (showing_seoul "Atlantis")) = Normal tt
  /\ loading (view (snd (fetchWeatherByCity (proxy city_not_found) "Atlantis"
                           (showing_seoul "Atlantis")))) = false
  /\ weather (view (snd (fetchWeatherByCity (proxy city_not_found) "Atlantis"
                           (showing_seoul "Atlantis")))) = None
  /\ error (view (snd (fetchWeatherByCity (proxy city_not_found) "Atlantis"
                         (showing_seoul "Atlantis"))))
     = Some "city not found"
  /\ requests (snd (fetchWeatherByCity (proxy city_not_found) "Atlantis"
                      (showing_seoul "Atlantis")))
     = [{| url := "/api/weather?city=Atlantis";
           shown :=
             {| city := "Atlantis"; weather := None; loading := true;
                error := None; locationLoading := false;
                locationError := None |} |}].
Proof.
  destruct (fetch_is_one_cycle (proxy city_not_found) whole_degrees
              (37 # 1) (127 # 1) "Atlantis" (showing_seoul "Atlantis")
              ltac:(discriminate))
    as [_ (s' & Hrun & Hloading & Hweather & Hmessage & _)].
  rewrite Hrun. cbn [fst snd view requests].
  split; [reflexivity |]. split; [exact Hloading |].
  split; [exact Hweather |].
  split; [| reflexivity].
  apply Hmessage; [left; reflexivity | discriminate].
Defined.

(** C10.  Submitting the form while the city field is empty does
    nothing: [fetchWeatherByCity] returns at once, no request is issued,
    and the view's state is what it was. *)
Theorem empty_city_is_a_no_op (fetch : string -> Fetched) (w : World) :
  city (view w) = "" ->
  handleSearch fetch w = (Normal tt, w)
  /\ fetchWeatherByCity fetch "" w = (Normal tt, w).
Proof.
  intros Hcity. unfold handleSearch, bind, get. rewrite Hcity.
  split; reflexivity.
Qed.

Lemma empty_city_is_a_no_op_witness :
  handleSearch (proxy Rejected) (showing_seoul "")
  = (Normal tt, showing_seoul "").
Proof.
  apply (empty_city_is_a_no_op (proxy Rejected) (showing_seoul "")).
  reflexivity.
Defined.

(** C7.  The message for a geolocation failure is a function of the
    error code, the same in both variants of the view: one fixed string
    for each of permission denied, position unavailable and timeout; for
    any other code a fixed text that ends with the code; and never the
    empty string.  The error callback stores that message. *)
Theorem geolocation_message_total :
  errorMessage PERMISSION_DENIED = "위치 정보 제공을 허용해주세요."
  /\ errorMessage POSITION_UNAVAILABLE = "사용 가능한 위치 정보가 없습니다."
  /\ errorMessage TIMEOUT = "위치 정보 요청 시간이 초과되었습니다."
  /\ (forall code,
         code <> PERMISSION_DENIED -> code <> POSITION_UNAVAILABLE ->
         code <> TIMEOUT ->
         errorMessage code
         = "알 수 없는 위치 정보 오류가 발생했습니다. (코드: "
             ++ Number_toString code ++ ")")
  /\ (forall code, errorMessage code <> "")
  /\ (forall code, HomePageChart.errorMessage code = errorMessage code)
  /\ (forall code w,
         exists s',
           onPositionError code w
           = (Normal tt, {| view := s'; requests := requests w |})
           /\ locationError s' = Some (errorMessage code)
           /\ locationLoading s' = false)
  /\ (forall code s,
         HomePageChart.locationError (HomePageChart.onPositionError code s)
         = Some (errorMessage code)).
Proof.
  repeat split.
  - intros code H1 H2 H3. unfold errorMessage.
    apply Z.eqb_neq in H1, H2, H3. now rewrite H1, H2, H3.
  - intros code. unfold errorMessage.
    destruct (code =? PERMISSION_DENIED); [discriminate |].
    destruct (code =? POSITION_UNAVAILABLE); [discriminate |].
    destruct (code =? TIMEOUT); discriminate.
  - intros code w. eexists. split; [reflexivity |]. split; reflexivity.
Qed.

End ViewFacts.

(** * Properties of the ring chart's percentage *)

Module ChartFacts.

Import HomePageChart.

Local Open Scope Q_scope.

Lemma Math_min_spec (a b : Q) :
  Math_min a b <= a /\ Math_min a b <= b
  /\ (Math_min a b = a \/ Math_min a b = b).
Proof.
  unfold Math_min. destruct (Qle_bool a b) eqn:H.
  - apply Qle_bool_iff in H. repeat split; [apply Qle_refl | exact H | now left].
  - assert (Hlt : b < a).
    { apply Qnot_le_lt. intros Hle. apply Qle_bool_iff in Hle. congruence. }
    repeat split; [now apply Qlt_le_weak | apply Qle_refl | now right].
Qed.

Lemma Math_max_spec (a b : Q) :
  a <= Math_max a b /\ b <= Math_max a b
  /\ (Math_max a b = a \/ Math_max a b = b).
Proof.
  unfold Math_max. destruct (Qle_bool a b) eqn:H.
  - apply Qle_bool_iff in H. repeat split; [exact H | apply Qle_refl | now right].
  - assert (Hlt : b < a).
    { apply Qnot_le_lt. intros Hle. apply Qle_bool_iff in Hle. congruence. }
    repeat split; [apply Qle_refl | now apply Qlt_le_weak | now left].
Qed.

(** The clamped temperature lies in the range. *)
Lemma clamped_in_range (temp : Q) :
  - (20 # 1) <= Math_max (- (20 # 1)) (Math_min (40 # 1) temp) <= 40 # 1.
Proof.
  destruct (Math_max_spec (- (20 # 1)) (Math_min (40 # 1) temp))
    as (Hlo & _ & Hcase).
  split; [exact Hlo |].
  destruct Hcase as [E | E]; rewrite E; [discriminate | apply Math_min_spec].
Qed.

Lemma Math_round_bounds (x : Q) (lo hi : Z) :
  inject_Z lo <= x -> x <= inject_Z hi ->
  (lo <= Math_round x <= hi)%Z.
Proof.
  intros Hlo Hhi. unfold Math_round. split.
  - rewrite <- (Qfloor_Z lo). apply Qfloor_resp_le. lra.
  - assert (H : (Qfloor (x + (1 # 2)) < hi + 1)%Z); [| lia].
    rewrite Zlt_Qlt.
    apply Qle_lt_trans with (x + (1 # 2)); [apply Qfloor_le |].
    rewrite inject_Z_plus. change (inject_Z 1) with 1. lra.
Qed.

Lemma Some_eq {A : Type} (a b : A) : Some a = Some b -> a = b.
Proof. intros [= H]. exact H. Qed.

Lemma Qfloor_eq (x : Q) (n : Z) :
  inject_Z n <= x -> x < inject_Z (n + 1) -> Qfloor x = n.
Proof.
  intros Hlo Hhi.
  assert (H1 : (Qfloor x < n + 1)%Z).
  { rewrite Zlt_Qlt. apply Qle_lt_trans with x; [apply Qfloor_le | exact Hhi]. }
  assert (H2 : (n < Qfloor x + 1)%Z).
  { rewrite Zlt_Qlt. apply Qle_lt_trans with x; [exact Hlo | apply Qlt_floor]. }
  lia.
Qed.

(** The temperature clamped to the range. *)
Lemma clamp_cases (temp : Q) :
  let c := Math_max (- (20 # 1)) (Math_min (40 # 1) temp) in
  (temp <= - (20 # 1) /\ c == - (20 # 1))
  \/ (- (20 # 1) <= temp <= 40 # 1 /\ c == temp)
  \/ (40 # 1 <= temp /\ c == 40 # 1).
Proof.
  cbv zeta. unfold Math_max, Math_min.
  destruct (Qle_bool (40 # 1) temp) eqn:H1.
  - apply Qle_bool_iff in H1. right. right. split; [exact H1 |].
    destruct (Qle_bool (- (20 # 1)) (40 # 1)) eqn:H2; [reflexivity |].
    discriminate H2.
  - assert (Hlt : temp < 40 # 1).
    { apply Qnot_le_lt. intros Hle. apply Qle_bool_iff in Hle. congruence. }
    destruct (Qle_bool (- (20 # 1)) temp) eqn:H2.
    + apply Qle_bool_iff in H2. right. left.
      split; [split; [exact H2 | now apply Qlt_le_weak] | reflexivity].
    + assert (Hlt' : temp < - (20 # 1)).
      { apply Qnot_le_lt. intros Hle. apply Qle_bool_iff in Hle. congruence. }
      left. split; [now apply Qlt_le_weak | reflexivity].
Qed.

(** The percentage as one formula of the clamped temperature. *)
Lemma percentage_formula (temp : Q) :
  calculateTemperaturePercentage (Some temp)
  = Some (Qfloor ((Math_max (- (20 # 1)) (Math_min (40 # 1) temp) + (20 # 1))
                    * (5 # 3) + (1 # 2))).
Proof.
  unfold calculateTemperaturePercentage, Math_round. cbv zeta. f_equal.
  apply Qfloor_comp. field.
Qed.

Lemma percentage_in_range (temp : Q) :
  exists p,
    calculateTemperaturePercentage (Some temp) = Some p /\ (0 <= p <= 100)%Z.
Proof.
  eexists. split; [reflexivity |]. cbv zeta.
  pose proof (clamped_in_range temp) as [Hlo Hhi].
  set (c := Math_max (- (20 # 1)) (Math_min (40 # 1) temp)) in *.
  assert (E : (c - - (20 # 1)) / ((40 # 1) - - (20 # 1)) * (100 # 1)
              == (c + (20 # 1)) * (5 # 3)) by field.
  apply Math_round_bounds.
  - rewrite E. change (inject_Z 0) with 0. lra.
  - rewrite E. change (inject_Z 100) with (100 # 1). lra.
Qed.

(** C2.  The percentage of a temperature is the linear map of the range
    -20..40 onto 0..100, clamped and rounded: 0 at -20, 100 at 40, 50 at
    10, 0 at -50 (below the range), 100 at 100 (above it); for every
    temperature that is defined it is an integer from 0 to 100, which is
    0 at and below -20, 100 at and above 40, and in between within half
    a point of (temp + 20) * 100 / 60.  The bound leaves a thousandth of
    a point beyond the half, so that it does not say which way an exact
    half goes, which the last bit of the arithmetic decides. *)
Theorem percentage_of_temperature :
  calculateTemperaturePercentage (Some (- (20 # 1))) = Some 0%Z
  /\ calculateTemperaturePercentage (Some (40 # 1)) = Some 100%Z
  /\ calculateTemperaturePercentage (Some (10 # 1)) = Some 50%Z
  /\ calculateTemperaturePercentage (Some (- (50 # 1))) = Some 0%Z
  /\ calculateTemperaturePercentage (Some (100 # 1)) = Some 100%Z
  /\ (forall temp : Q,
         exists p : Z,
           calculateTemperaturePercentage (Some temp) = Some p
           /\ (0 <= p <= 100)%Z
           /\ (temp <= - (20 # 1) -> p = 0%Z)
           /\ (40 # 1 <= temp -> p = 100%Z)
           /\ (- (20 # 1) <= temp -> temp <= 40 # 1 ->
               (temp + (20 # 1)) * (100 # 60) - (1 # 2) - (1 # 1000)
               <= inject_Z p
               /\ inject_Z p
                  <= (temp + (20 # 1)) * (100 # 60) + (1 # 2) + (1 # 1000))).
Proof.
  repeat split.
  intros temp.
  destruct (percentage_in_range temp) as (p & Hp & Hrange).
  exists p. split; [exact Hp |]. split; [exact Hrange |].
  rewrite percentage_formula in Hp. apply Some_eq in Hp.
  pose proof (clamp_cases temp) as H. cbv zeta in H.
  set (c := Math_max (- (20 # 1)) (Math_min (40 # 1) temp)) in *.
  set (x := (c + (20 # 1)) * (5 # 3) + (1 # 2)) in *.
  pose proof (Qfloor_le x) as Hlo. pose proof (Qlt_floor x) as Hhi.
  rewrite inject_Z_plus in Hhi. change (inject_Z 1) with 1 in Hhi.
  rewrite Hp in Hlo, Hhi.
  split; [| split].
  - intros Ht. rewrite <- Hp. apply Qfloor_eq.
    + change (inject_Z 0) with 0. subst x.
      destruct H as [[? E1] | [[[? ?] E1] | [? E1]]]; rewrite E1; lra.
    + change (inject_Z (0 + 1)) with 1. subst x.
      destruct H as [[? E1] | [[[? ?] E1] | [? E1]]]; rewrite E1; lra.
  - intros Ht. rewrite <- Hp. apply Qfloor_eq.
    + change (inject_Z 100) with (100 # 1). subst x.
      destruct H as [[? E1] | [[[? ?] E1] | [? E1]]]; rewrite E1; lra.
    + change (inject_Z (100 + 1)) with (101 # 1). subst x.
      destruct H as [[? E1] | [[[? ?] E1] | [? E1]]]; rewrite E1; lra.
  - intros Ht1 Ht2.
    assert (E : c == temp).
    { destruct H as [[? E1] | [[[? ?] E1] | [? E1]]]; rewrite E1; lra. }
    subst x. split; lra.
Qed.

End ChartFacts.

(** * Further properties of the proxy endpoint *)

Module ProxyMore.

Import Proxy ProxyFacts Samples.

Lemma or_else_not_empty (a : option string) (fallback : string) :
  fallback <> "" -> or_else a fallback <> "".
Proof.
  intros Hf. destruct a as [m|]; cbn; [| exact Hf].
  destruct (truthy m) eqn:Hm; [now apply truthy_string | exact Hf].
Qed.

Lemma build_url_none (k : string) (req : NextApiRequest) :
  build_url k req = None <->
  ~ present_string (city req)
  /\ ~ (present_string (lat req) /\ present_string (lon req)).
Proof.
  unfold build_url. split.
  - destruct (coordinates_given req) eqn:Hc; [discriminate |].
    destruct (city_given req) eqn:Hg; [discriminate |]. intros _. split.
    + intros H. apply city_given_iff in H. congruence.
    + intros [(la & Hla & Hla') (lo & Hlo & Hlo')].
      assert (coordinates_given req = true); [| congruence].
      apply coordinates_given_iff. exists la, lo. auto.
  - intros [Hcity Hpair].
    destruct (coordinates_given req) eqn:Hc.
    + exfalso. apply Hpair.
      apply coordinates_given_iff in Hc as (la & lo & Hla & Hla' & Hlo & Hlo').
      split; [exists la | exists lo]; auto.
    + destruct (city_given req) eqn:Hg; [| reflexivity].
      exfalso. apply Hcity. now apply city_given_iff.
Qed.

Lemma append_same_prefix (a x : string) : a ++ x = a -> x = "".
Proof.
  induction a as [|c a IH]; cbn; [auto |].
  intros [= H]. auto.
Qed.

Lemma handler_200 (env : Env) (req : NextApiRequest)
    (fetch : string -> Upstream) :
  status (fst (handler env req fetch)) = 200 ->
  exists url data,
    snd (handler env req fetch) = [url]
    /\ fetch url = Resolves data
    /\ (cod data = None \/ cod data = Some 0 \/ cod data = Some 200)
    /\ body (fst (handler env req fetch)) = JsonData data.
Proof.
  intros H200.
  destruct (truthy (OPENWEATHER_API_KEY env)) eqn:Hkey.
  - apply truthy_key in Hkey as (k & Hk & Hne).
    rewrite (handler_configured env req fetch k Hk Hne) in *.
    destruct (build_url k req) as [url|]; [| discriminate H200].
    cbn [fst snd] in *. exists url.
    destruct (fetch url) as [e | data]; [discriminate H200 |].
    exists data. split; [reflexivity |]. split; [reflexivity |].
    destruct (tried_cases data)
      as [(c & _ & _ & Hc & _ & E) | [(c & _ & _ & _ & E) | [Hcod E]]];
      rewrite E in *;
      [cbn in H200; congruence | discriminate H200 | auto].
  - rewrite (handler_unconfigured env req fetch Hkey) in H200.
    discriminate H200.
Qed.

(** X1.  One invocation fetches at most one URL, and none exactly when
    the credential is missing or the request has neither a city nor a
    coordinate pair. *)
Theorem at_most_one_upstream_call (env : Env) (req : NextApiRequest)
    (fetch : string -> Upstream) :
  (length (snd (handler env req fetch)) <= 1)%nat
  /\ (snd (handler env req fetch) = [] <->
      truthy (OPENWEATHER_API_KEY env) = false
      \/ (~ present_string (city req)
          /\ ~ (present_string (lat req) /\ present_string (lon req)))).
Proof.
  destruct (truthy (OPENWEATHER_API_KEY env)) eqn:Hkey.
  - apply truthy_key in Hkey as (k & Hk & Hne).
    rewrite (handler_configured env req fetch k Hk Hne).
    pose proof (build_url_none k req) as Hnone.
    destruct (build_url k req) as [url|]; cbn [snd length].
    + split; [lia |]. split; [discriminate |].
      intros [H | H]; [discriminate |].
      apply Hnone in H. discriminate.
    + split; [lia |]. split; [| reflexivity].
      intros _. right. now apply Hnone.
  - rewrite (handler_unconfigured env req fetch Hkey). cbn.
    split; [lia |]. split; auto.
Qed.

(** X2.  The handler answers 200 exactly when it fetched a URL and the
    provider's body came back with an embedded code that is absent, 0 or
    200; the body written is then the provider's body, unchanged. *)
Theorem success_relays_the_body (env : Env) (req : NextApiRequest)
    (fetch : string -> Upstream) :
  (status (fst (handler env req fetch)) = 200 <->
   exists url data,
     snd (handler env req fetch) = [url]
     /\ fetch url = Resolves data
     /\ (cod data = None \/ cod data = Some 0 \/ cod data = Some 200))
  /\ (forall url data,
         snd (handler env req fetch) = [url] ->
         fetch url = Resolves data ->
         status (fst (handler env req fetch)) = 200 ->
         body (fst (handler env req fetch)) = JsonData data).
Proof.
  split; [split |].
  - intros H200.
    destruct (handler_200 env req fetch H200) as (url & data & H1 & H2 & H3 & _).
    exists url, data. auto.
  - intros (url & data & Hcalls & Hfetch & Hcod).
    assert (Hin : In url (snd (handler env req fetch)))
      by (rewrite Hcalls; left; reflexivity).
    apply handler_called in Hin as (k & _ & _ & _ & Hrun).
    rewrite Hrun, Hfetch. cbn [fst].
    destruct (tried_cases data)
      as [(c & Hc & H0 & H200 & _ & _)
         | [(c & Hc & H0 & Hout & _) | [_ ->]]];
      [exfalso | exfalso | reflexivity];
      destruct Hcod as [Hcod | [Hcod | Hcod]]; try congruence.
    assert (c = 200) by congruence. lia.
  - intros url data Hcalls Hfetch H200.
    destruct (handler_200 env req fetch H200)
      as (url' & data' & Hcalls' & Hfetch' & _ & Hbody).
    assert (url' = url) by congruence. subst url'.
    assert (data' = data) by congruence. subst data'. exact Hbody.
Qed.

Lemma handler_answer_shape (env : Env) (req : NextApiRequest)
    (fetch : string -> Upstream) :
  (status (fst (handler env req fetch)) = 200
   /\ exists data, body (fst (handler env req fetch)) = JsonData data)
  \/ (status (fst (handler env req fetch)) <> 200
      /\ exists m, body (fst (handler env req fetch)) = JsonMessage m
                   /\ m <> "").
Proof.
  destruct (truthy (OPENWEATHER_API_KEY env)) eqn:Hkey.
  - apply truthy_key in Hkey as (k & Hk & Hne).
    rewrite (handler_configured env req fetch k Hk Hne).
    destruct (build_url k req) as [url|]; cbn [fst].
    + destruct (fetch url) as [e | data].
      * right. cbn. split; [discriminate |]. eexists. split; [reflexivity |].
        discriminate.
      * destruct (tried_cases data)
          as [(c & _ & _ & Hc & _ & ->) | [(c & _ & _ & _ & ->) | [_ ->]]];
          cbn.
        -- right. split; [exact Hc |]. eexists. split; [reflexivity |].
           now apply or_else_not_empty.
        -- right. split; [discriminate |]. eexists. split; [reflexivity |].
           discriminate.
        -- left. eauto.
    + right. cbn. split; [discriminate |]. eexists. split; [reflexivity |].
      discriminate.
  - rewrite (handler_unconfigured env req fetch Hkey). right. cbn.
    split; [discriminate |]. eexists. split; [reflexivity |]. discriminate.
Qed.

(** X3.  Every answer other than 200 carries a message instead of
    weather data, and a message written by the handler is never empty,
    whatever the provider sent. *)
Theorem error_answers_carry_a_message (env : Env) (req : NextApiRequest)
    (fetch : string -> Upstream) :
  (status (fst (handler env req fetch)) <> 200 <->
   exists m, body (fst (handler env req fetch)) = JsonMessage m)
  /\ (forall m, body (fst (handler env req fetch)) = JsonMessage m -> m <> "").
Proof.
  destruct (handler_answer_shape env req fetch)
    as [[H200 (data & Hb)] | [H200 (m & Hb & Hm)]]; rewrite Hb.
  - split; [split; [congruence | intros (m & H); discriminate H] |].
    intros m H. discriminate H.
  - split; [split; [eauto | auto] |].
    intros m' [= <-]. exact Hm.
Qed.

(** X4.  Query values go into the upstream URL as they are, so different
    requests can build the same upstream request: a [lat] that ends in
    ["&lon=" ++ b] followed by the [lon] value [c] is fetched, and
    answered, exactly like the [lat] before it followed by the [lon]
    value [b ++ "&lon=" ++ c]. *)
Theorem unencoded_parameters_collide (env : Env) (fetch : string -> Upstream)
    (v : QueryValue) (a b c : string) :
  truthy (OPENWEATHER_API_KEY env) = true ->
  a <> "" -> c <> "" ->
  {| city := v; lat := Str (a ++ "&lon=" ++ b); lon := Str c |}
  <> {| city := v; lat := Str a; lon := Str (b ++ "&lon=" ++ c) |}
  /\ handler env {| city := v; lat := Str (a ++ "&lon=" ++ b); lon := Str c |}
       fetch
     = handler env {| city := v; lat := Str a; lon := Str (b ++ "&lon=" ++ c) |}
         fetch
  /\ length (snd (handler env
                    {| city := v; lat := Str a; lon := Str (b ++ "&lon=" ++ c) |}
                    fetch)) = 1%nat.
Proof.
  intros Hkey Ha Hc.
  apply truthy_key in Hkey as (k & Hk & Hne).
  split.
  - intros [= H]. apply append_same_prefix in H. discriminate H.
  - rewrite !(handler_configured env _ fetch k Hk Hne).
    assert (H1 : coordinates_given
                   {| city := v; lat := Str (a ++ "&lon=" ++ b); lon := Str c |}
                 = true).
    { apply coordinates_given_iff. exists (a ++ "&lon=" ++ b), c. cbn.
      repeat split; [| exact Hc].
      intros H. destruct a; [now apply Ha | discriminate H]. }
    assert (H2 : coordinates_given
                   {| city := v; lat := Str a; lon := Str (b ++ "&lon=" ++ c) |}
                 = true).
    { apply coordinates_given_iff. exists a, (b ++ "&lon=" ++ c). cbn.
      repeat split; [exact Ha |].
      intros H. destruct b; discriminate H. }
    unfold build_url. rewrite H1, H2. cbn [lat lon text].
    assert (E : coordinates_url (a ++ "&lon=" ++ b) c k
                = coordinates_url a (b ++ "&lon=" ++ c) k).
    { unfold coordinates_url. now rewrite !append_assoc. }
    rewrite E. split; reflexivity.
Qed.

Lemma unencoded_parameters_collide_witness :
  handler configured
    {| city := Undefined; lat := Str "37.57&lon=1"; lon := Str "126.98" |}
    (provider (seoul (Some 200) None))
  = handler configured
      {| city := Undefined; lat := Str "37.57"; lon := Str "1&lon=126.98" |}
      (provider (seoul (Some 200) None)).
Proof.
  apply (unencoded_parameters_collide configured
           (provider (seoul (Some 200) None)) Undefined
           "37.57" "1" "126.98");
    [reflexivity | discriminate | discriminate].
Defined.

End ProxyMore.

(** * Further properties of the dashboard view *)

Module ViewMore.

Import HomePage Samples.

Ltac run_cycle fetch u :=
  unfold fetchWeatherByCoords, fetchWeatherByCity, try_catch_finally, bind,
    await_fetch, await_json, setLoading, setError, setWeather, setCity,
    modify, ret, throw;
  destruct (fetch u) as [| [[|] [?data|]]]; cbn.

Lemma city_name_truthy (cityName : string) :
  cityName <> "" -> negb (truthy cityName) = false.
Proof.
  intros H. apply ProxyFacts.truthy_string in H. now rewrite H.
Qed.

(** X5.  What a fetch leaves in [weather], [error] and [loading] depends
    on the proxy's answer only, not on the state it starts from: a later
    fetch supersedes whatever an earlier one left. *)
Theorem cycle_outcome_ignores_earlier_state (fetch : string -> Fetched)
    (coordinate_text : Q -> string) (latitude longitude : Q)
    (cityName : string) (w1 w2 : World) :
  cityName <> "" ->
  let outcome := fun r : Completion unit * World =>
    (weather (view (snd r)), error (view (snd r)), loading (view (snd r))) in
  outcome (fetchWeatherByCoords fetch coordinate_text latitude longitude w1)
  = outcome (fetchWeatherByCoords fetch coordinate_text latitude longitude w2)
  /\ outcome (fetchWeatherByCity fetch cityName w1)
     = outcome (fetchWeatherByCity fetch cityName w2).
Proof.
  intros Hname outcome. subst outcome. split.
  - run_cycle fetch ("/api/weather?lat=" ++ coordinate_text latitude
                       ++ "&lon=" ++ coordinate_text longitude);
      reflexivity.
  - unfold fetchWeatherByCity. rewrite (city_name_truthy cityName Hname).
    run_cycle fetch ("/api/weather?city=" ++ cityName); reflexivity.
Qed.

Lemma cycle_outcome_ignores_earlier_state_witness :
  weather (view (snd (fetchWeatherByCity (proxy Rejected) "Seoul"
                        (showing_seoul "Seoul"))))
  = weather (view (snd (fetchWeatherByCity (proxy Rejected) "Seoul"
                          {| view := initialState; requests := [] |}))).
Proof.
  pose proof (cycle_outcome_ignores_earlier_state (proxy Rejected)
                whole_degrees (37 # 1) (127 # 1) "Seoul"
                (showing_seoul "Seoul")
                {| view := initialState; requests := [] |}
                ltac:(discriminate)) as [_ H].
  exact (f_equal (fun t => fst (fst t)) H).
Defined.

(** X6.  A fetch never touches the location flags.  A fetch by city
    leaves the typed city as it is; a fetch by coordinates clears it
    when a result came and leaves it otherwise. *)
Theorem cycle_frame (fetch : string -> Fetched)
    (coordinate_text : Q -> string) (latitude longitude : Q)
    (cityName : string) (w : World) :
  cityName <> "" ->
  let by_coords :=
    view (snd (fetchWeatherByCoords fetch coordinate_text latitude longitude w)) in
  let by_city := view (snd (fetchWeatherByCity fetch cityName w)) in
  locationLoading by_coords = locationLoading (view w)
  /\ locationError by_coords = locationError (view w)
  /\ (weather by_coords <> None -> city by_coords = "")
  /\ (weather by_coords = None -> city by_coords = city (view w))
  /\ locationLoading by_city = locationLoading (view w)
  /\ locationError by_city = locationError (view w)
  /\ city by_city = city (view w).
Proof.
  intros Hname by_coords by_city. subst by_coords by_city.
  assert (Hcoords :
    let s := view (snd (fetchWeatherByCoords fetch coordinate_text
                          latitude longitude w)) in
    locationLoading s = locationLoading (view w)
    /\ locationError s = locationError (view w)
    /\ (weather s <> None -> city s = "")
    /\ (weather s = None -> city s = city (view w))).
  { run_cycle fetch ("/api/weather?lat=" ++ coordinate_text latitude
                       ++ "&lon=" ++ coordinate_text longitude);
      repeat split; try reflexivity; try discriminate; congruence. }
  assert (Hcity :
    let s := view (snd (fetchWeatherByCity fetch cityName w)) in
    locationLoading s = locationLoading (view w)
    /\ locationError s = locationError (view w)
    /\ city s = city (view w)).
  { unfold fetchWeatherByCity. rewrite (city_name_truthy cityName Hname).
    run_cycle fetch ("/api/weather?city=" ++ cityName);
      repeat split. }
  cbv zeta in Hcoords, Hcity. tauto.
Qed.

Lemma cycle_frame_witness :
  city (view (snd (fetchWeatherByCity (proxy Rejected) "Seoul"
                     (showing_seoul "Seoul")))) = "Seoul".
Proof.
  pose proof (cycle_frame (proxy Rejected) whole_degrees (37 # 1) (127 # 1)
                "Seoul" (showing_seoul "Seoul") ltac:(discriminate))
    as (_ & _ & _ & _ & _ & _ & H).
  exact H.
Defined.

(** X7.  After a fetch the view holds either a result and no error, or
    no result and an error that is not empty: one of the two is on
    display, never both and never neither. *)
Theorem result_or_error_after_a_fetch (fetch : string -> Fetched)
    (coordinate_text : Q -> string) (latitude longitude : Q)
    (cityName : string) (w : World) :
  cityName <> "" ->
  let settled := fun s : State =>
    (weather s <> None /\ error s = None)
    \/ (weather s = None /\ exists m, error s = Some m /\ m <> "") in
  settled (view (snd (fetchWeatherByCoords fetch coordinate_text
                        latitude longitude w)))
  /\ settled (view (snd (fetchWeatherByCity fetch cityName w))).
Proof.
  intros Hname settled. subst settled. split.
  - run_cycle fetch ("/api/weather?lat=" ++ coordinate_text latitude
                       ++ "&lon=" ++ coordinate_text longitude);
      try (left; split; [discriminate | reflexivity]);
      right; (split; [reflexivity |]); eexists; (split; [reflexivity |]);
      try discriminate; now apply ProxyMore.or_else_not_empty.
  - unfold fetchWeatherByCity. rewrite (city_name_truthy cityName Hname).
    run_cycle fetch ("/api/weather?city=" ++ cityName);
      try (left; split; [discriminate | reflexivity]);
      right; (split; [reflexivity |]); eexists; (split; [reflexivity |]);
      try discriminate; now apply ProxyMore.or_else_not_empty.
Qed.

Lemma result_or_error_after_a_fetch_witness :
  weather (view (snd (fetchWeatherByCity (proxy Rejected) "Seoul"
                        (showing_seoul "Seoul")))) = None
  /\ exists m,
       error (view (snd (fetchWeatherByCity (proxy Rejected) "Seoul"
                           (showing_seoul "Seoul")))) = Some m
       /\ m <> "".
Proof.
  pose proof (result_or_error_after_a_fetch (proxy Rejected) whole_degrees
                (37 # 1) (127 # 1) "Seoul" (showing_seoul "Seoul")
                ltac:(discriminate)) as [_ [[H _] | H]].
  - exfalso. apply H. reflexivity.
  - exact H.
Defined.

Lemma errorMessage_not_empty (code : Z) : errorMessage code <> "".
Proof.
  unfold errorMessage.
  destruct (code =? PERMISSION_DENIED); [discriminate |].
  destruct (code =? POSITION_UNAVAILABLE); [discriminate |].
  destruct (code =? TIMEOUT); discriminate.
Qed.

(** X8.  The form is locked while a fetch is under way: the one request
    a fetch issues goes out while the view shows the form disabled, and
    once the fetch is over the form is disabled only if the location is
    still being resolved. *)
Theorem form_locked_while_fetching (fetch : string -> Fetched)
    (coordinate_text : Q -> string) (latitude longitude : Q)
    (cityName : string) (w : World) :
  cityName <> "" ->
  let locked := fun r : Completion unit * World =>
    (exists request,
        requests (snd r) = (requests w ++ [request])%list
        /\ formDisabled (shown request) = true)
    /\ formDisabled (view (snd r)) = locationLoading (view w) in
  locked (fetchWeatherByCoords fetch coordinate_text latitude longitude w)
  /\ locked (fetchWeatherByCity fetch cityName w).
Proof.
  intros Hname locked. subst locked. split.
  - run_cycle fetch ("/api/weather?lat=" ++ coordinate_text latitude
                       ++ "&lon=" ++ coordinate_text longitude);
      (split; [eexists; split; reflexivity | reflexivity]).
  - unfold fetchWeatherByCity. rewrite (city_name_truthy cityName Hname).
    run_cycle fetch ("/api/weather?city=" ++ cityName);
      (split; [eexists; split; reflexivity | reflexivity]).
Qed.

Lemma form_locked_while_fetching_witness :
  formDisabled (view (snd (fetchWeatherByCity (proxy Rejected) "Seoul"
                             (showing_seoul "Seoul")))) = false.
Proof.
  pose proof (form_locked_while_fetching (proxy Rejected) whole_degrees
                (37 # 1) (127 # 1) "Seoul" (showing_seoul "Seoul")
                ltac:(discriminate)) as [_ [_ H]].
  exact H.
Defined.

(** X9.  When the location cannot be had, because the browser lacks
    geolocation or because the position request fails with any code,
    nothing is fetched, the location flag is cleared and a message that
    is not empty is stored; city, result, error and loading flag stay as
    they were, so the form is disabled only if a fetch is under way.
    From the initial state, where the form is disabled, the form is
    enabled afterwards. *)
Theorem location_failure_opens_the_form (code : Z) (w : World) :
  let failed := fun run : Async unit =>
    exists s',
      run w = (Normal tt, {| view := s'; requests := requests w |})
      /\ locationLoading s' = false
      /\ (exists m, locationError s' = Some m /\ m <> "")
      /\ city s' = city (view w)
      /\ weather s' = weather (view w)
      /\ error s' = error (view w)
      /\ loading s' = loading (view w)
      /\ formDisabled s' = loading (view w)
      /\ (view w = initialState ->
          formDisabled (view w) = true /\ formDisabled s' = false) in
  failed (onPositionError code) /\ failed geolocationUnsupported.
Proof.
  intros failed. subst failed. split.
  - eexists. split; [reflexivity |]. cbn.
    split; [reflexivity |].
    split; [eexists; split; [reflexivity | apply errorMessage_not_empty] |].
    unfold formDisabled. cbn. rewrite orb_false_r.
    repeat (split; [reflexivity |]).
    intros ->. split; reflexivity.
  - eexists. split; [reflexivity |]. cbn.
    split; [reflexivity |].
    split; [eexists; split; [reflexivity | discriminate] |].
    unfold formDisabled. cbn. rewrite orb_false_r.
    repeat (split; [reflexivity |]).
    intros ->. split; reflexivity.
Qed.

#[local] Arguments weatherPanel : simpl never.

(** X10.  The [try] of a fetch does not cover the rendering of its
    result: after a fetch, the result panel throws exactly when the
    proxy's response was [ok] and its body has no first [weather] entry
    (an empty list, or a body that is a message); after every other
    response it renders, the panel or nothing. *)
Theorem panel_throws_without_a_condition (fetch : string -> Fetched)
    (coordinate_text : Q -> string) (latitude longitude : Q)
    (cityName : string) (w : World) :
  cityName <> "" ->
  let throws_after := fun (u : string) (r : Completion unit * World) =>
    weatherPanel (view (snd r)) = RenderThrows <->
    exists data,
      fetch u = Fulfilled {| ok := true; json := Some data |}
      /\ forall d, data = Proxy.JsonData d -> Proxy.weather d = [] in
  throws_after
    ("/api/weather?lat=" ++ coordinate_text latitude
       ++ "&lon=" ++ coordinate_text longitude)
    (fetchWeatherByCoords fetch coordinate_text latitude longitude w)
  /\ throws_after ("/api/weather?city=" ++ cityName)
       (fetchWeatherByCity fetch cityName w).
Proof.
  intros Hname throws_after. subst throws_after.
  assert (Hpanel : forall (s : State) (data : Proxy.Body),
             weather s = Some data ->
             (weatherPanel s = RenderThrows <->
              forall d, data = Proxy.JsonData d -> Proxy.weather d = [])).
  { intros s data Hw. unfold weatherPanel. rewrite Hw.
    destruct data as [d | m].
    - destruct (Proxy.weather d) eqn:Hl.
      + split; [| reflexivity]. intros _ d' [= <-]. exact Hl.
      + split; [discriminate |]. intros H.
        specialize (H d eq_refl). congruence.
    - split; [| reflexivity]. intros _ d H. discriminate H. }
  split.
  - run_cycle fetch ("/api/weather?lat=" ++ coordinate_text latitude
                       ++ "&lon=" ++ coordinate_text longitude);
      try (split; [discriminate | intros (d & H & _); discriminate H]).
    match goal with
    | |- weatherPanel ?s = _ <-> _ => rewrite (Hpanel s data eq_refl)
    end.
    split.
    + intros H. exists data. split; [reflexivity | exact H].
    + intros (d & [= <-] & H). exact H.
  - unfold fetchWeatherByCity. rewrite (city_name_truthy cityName Hname).
    run_cycle fetch ("/api/weather?city=" ++ cityName);
      try (split; [discriminate | intros (d & H & _); discriminate H]).
    match goal with
    | |- weatherPanel ?s = _ <-> _ => rewrite (Hpanel s data eq_refl)
    end.
    split.
    + intros H. exists data. split; [reflexivity | exact H].
    + intros (d & [= <-] & H). exact H.
Qed.

Lemma panel_throws_without_a_condition_witness :
  weatherPanel
    (view (snd (fetchWeatherByCity
                  (proxy (Fulfilled
                            {| ok := true;
                               json := Some (Proxy.JsonData
                                               (empty_conditions)) |}))
                  "Seoul" (showing_seoul "Seoul"))))
  = RenderThrows.
Proof.
  pose proof (panel_throws_without_a_condition
                (proxy (Fulfilled
                          {| ok := true;
                             json := Some (Proxy.JsonData empty_conditions) |}))
                whole_degrees (37 # 1) (127 # 1) "Seoul"
                (showing_seoul "Seoul") ltac:(discriminate)) as [_ H].
  apply H. eexists. split; [reflexivity |].
  intros d [= <-]. reflexivity.
Defined.

(** X11.  The proxy's answer as the view displays it.  When the handler
    answers 200 and that reaches the view as an [ok] response, the
    result is the provider's body.  When the handler answers anything
    else and that reaches the view as a response that is not [ok], the
    error displayed is the handler's own message, which is never empty,
    so the view's fallback text is not used. *)
Theorem view_displays_the_handler_answer (env : Proxy.Env)
    (req : Proxy.NextApiRequest) (provider : string -> Proxy.Upstream)
    (fetch : string -> Fetched) (cityName : string) (w : World) :
  cityName <> "" ->
  let r := fst (Proxy.handler env req provider) in
  let s' := view (snd (fetchWeatherByCity fetch cityName w)) in
  (Proxy.status r = 200 ->
   fetch ("/api/weather?city=" ++ cityName)
   = Fulfilled {| ok := true; json := Some (Proxy.body r) |} ->
   exists url data,
     provider url = Proxy.Resolves data
     /\ weather s' = Some (Proxy.JsonData data)
     /\ error s' = None)
  /\ (Proxy.status r <> 200 ->
      fetch ("/api/weather?city=" ++ cityName)
      = Fulfilled {| ok := false; json := Some (Proxy.body r) |} ->
      exists m,
        Proxy.body r = Proxy.JsonMessage m
        /\ m <> ""
        /\ weather s' = None
        /\ error s' = Some m).
Proof.
  intros Hname r s'. subst r s'. split.
  - intros H200 Hfetch.
    apply ProxyMore.handler_200 in H200 as (url & data & _ & Hp & _ & Hb).
    exists url, data. split; [exact Hp |].
    unfold fetchWeatherByCity. rewrite (city_name_truthy cityName Hname).
    unfold try_catch_finally, bind, await_fetch, await_json, setLoading,
      setError, setWeather, modify, ret.
    rewrite Hfetch, Hb. cbn. split; reflexivity.
  - intros H200 Hfetch.
    destruct (ProxyMore.handler_answer_shape env req provider)
      as [[H _] | [_ (m & Hb & Hm)]]; [contradiction |].
    exists m. split; [exact Hb |]. split; [exact Hm |].
    unfold fetchWeatherByCity. rewrite (city_name_truthy cityName Hname).
    unfold try_catch_finally, bind, await_fetch, await_json, setLoading,
      setError, setWeather, modify, ret.
    rewrite Hfetch, Hb. cbn [json ok message_of].
    rewrite (ProxyFacts.or_else_present m _ Hm). split; reflexivity.
Qed.

Lemma view_displays_the_handler_answer_witness :
  error (view (snd (fetchWeatherByCity
                      (proxy (Fulfilled
                                {| ok := false;
                                   json := Some (Proxy.body
                                             (fst (Proxy.handler unconfigured
                                                     seoul_by_name
                                                     (failing Proxy.NetworkError)))) |}))
                      "Seoul" (showing_seoul "Seoul"))))
  = Some "API Key not configured".
Proof.
  pose proof (view_displays_the_handler_answer unconfigured seoul_by_name
                (failing Proxy.NetworkError)
                (proxy (Fulfilled
                          {| ok := false;
                             json := Some (Proxy.body
                                       (fst (Proxy.handler unconfigured
                                               seoul_by_name
                                               (failing Proxy.NetworkError)))) |}))
                "Seoul" (showing_seoul "Seoul") ltac:(discriminate))
    as [_ H].
  destruct (H ltac:(discriminate) eq_refl) as (m & Hb & _ & _ & He).
  injection Hb as <-. exact He.
Defined.

End ViewMore.

(** * Further properties of the ring chart *)

Module ChartMore.

Import HomePageChart ChartFacts.

Local Open Scope Q_scope.

(** X12.  The percentage never decreases when the temperature rises. *)
Theorem percentage_is_monotone (t1 t2 : Q) :
  t1 <= t2 ->
  exists p1 p2,
    calculateTemperaturePercentage (Some t1) = Some p1
    /\ calculateTemperaturePercentage (Some t2) = Some p2
    /\ (p1 <= p2)%Z.
Proof.
  intros Hle. rewrite !percentage_formula.
  eexists. eexists. split; [reflexivity |]. split; [reflexivity |].
  apply Qfloor_resp_le.
  pose proof (clamp_cases t1) as H1. pose proof (clamp_cases t2) as H2.
  cbv zeta in H1, H2.
  set (c1 := Math_max (- (20 # 1)) (Math_min (40 # 1) t1)) in *.
  set (c2 := Math_max (- (20 # 1)) (Math_min (40 # 1) t2)) in *.
  assert (Hc : c1 <= c2).
  { destruct H1 as [[? E1] | [[[? ?] E1] | [? E1]]];
      destruct H2 as [[? E2] | [[[? ?] E2] | [? E2]]];
      rewrite E1, E2; lra. }
  lra.
Qed.

Lemma percentage_is_monotone_witness :
  exists p1 p2,
    calculateTemperaturePercentage (Some (- (5 # 1))) = Some p1
    /\ calculateTemperaturePercentage (Some (31 # 2)) = Some p2
    /\ (p1 <= p2)%Z.
Proof.
  apply (percentage_is_monotone (- (5 # 1)) (31 # 2)). discriminate.
Defined.

(** X13.  Where the chart saturates: the percentage is 0 exactly for
    temperatures below -19.7 degrees and 100 exactly from 39.7 degrees
    on; everything at or below -20 and at or above 40 is among them. *)
Theorem percentage_saturates (temp : Q) :
  (calculateTemperaturePercentage (Some temp) = Some 0%Z
   <-> temp < - (197 # 10))
  /\ (calculateTemperaturePercentage (Some temp) = Some 100%Z
      <-> 397 # 10 <= temp).
Proof.
  rewrite percentage_formula.
  pose proof (clamp_cases temp) as H. cbv zeta in H.
  set (c := Math_max (- (20 # 1)) (Math_min (40 # 1) temp)) in *.
  set (x := (c + (20 # 1)) * (5 # 3) + (1 # 2)).
  pose proof (Qfloor_le x) as Hlo. pose proof (Qlt_floor x) as Hhi.
  split; split.
  - intros HE. pose proof (Some_eq _ _ HE) as E.
    rewrite E in Hhi. change (inject_Z (0 + 1)) with 1 in Hhi.
    subst x. destruct H as [[? E1] | [[[? ?] E1] | [? E1]]];
      rewrite E1 in Hhi; lra.
  - intros Ht. f_equal. apply Qfloor_eq.
    + change (inject_Z 0) with 0. subst x.
      destruct H as [[? E1] | [[[? ?] E1] | [? E1]]]; rewrite E1; lra.
    + change (inject_Z (0 + 1)) with 1. subst x.
      destruct H as [[? E1] | [[[? ?] E1] | [? E1]]]; rewrite E1; lra.
  - intros HE. pose proof (Some_eq _ _ HE) as E.
    rewrite E in Hlo. change (inject_Z 100) with (100 # 1) in Hlo.
    subst x. destruct H as [[? E1] | [[[? ?] E1] | [? E1]]];
      rewrite E1 in Hlo; lra.
  - intros Ht. f_equal. apply Qfloor_eq.
    + change (inject_Z 100) with (100 # 1). subst x.
      destruct H as [[? E1] | [[[? ?] E1] | [? E1]]]; rewrite E1; lra.
    + change (inject_Z (100 + 1)) with (101 # 1). subst x.
      destruct H as [[? E1] | [[[? ?] E1] | [? E1]]]; rewrite E1; lra.
Qed.

(** X14.  On whole degrees the rounding is to the nearest integer with
    nothing left open: for a temperature of [n] degrees, [n] an integer
    from -20 to 40, the percentage is strictly within half a point of
    (n + 20) * 100 / 60, which is never an exact half there. *)
Theorem percentage_is_nearest (n : Z) :
  (- 20 <= n <= 40)%Z ->
  exists p,
    calculateTemperaturePercentage (Some (inject_Z n)) = Some p
    /\ (inject_Z n + (20 # 1)) * (100 # 60) - (1 # 2) < inject_Z p
    /\ inject_Z p < (inject_Z n + (20 # 1)) * (100 # 60) + (1 # 2).
Proof.
  intros [Hn1 Hn2]. rewrite percentage_formula.
  eexists. split; [reflexivity |].
  pose proof (clamp_cases (inject_Z n)) as H. cbv zeta in H.
  set (c := Math_max (- (20 # 1)) (Math_min (40 # 1) (inject_Z n))) in *.
  assert (H1 : - (20 # 1) <= inject_Z n).
  { change (- (20 # 1)) with (inject_Z (- 20)). now rewrite <- Zle_Qle. }
  assert (H2 : inject_Z n <= 40 # 1).
  { change (40 # 1) with (inject_Z 40). now rewrite <- Zle_Qle. }
  assert (E : c == inject_Z n).
  { destruct H as [[? E1] | [[[? ?] E1] | [? E1]]]; rewrite E1; lra. }
  set (x := (c + (20 # 1)) * (5 # 3) + (1 # 2)).
  pose proof (Qfloor_le x) as Hfl. pose proof (Qlt_floor x) as Hfh.
  rewrite inject_Z_plus in Hfh. change (inject_Z 1) with 1 in Hfh.
  set (p := Qfloor x) in *.
  split; [subst x; lra |].
  assert (Hz : (6 * p <= 10 * n + 203)%Z).
  { rewrite Zle_Qle, inject_Z_plus, !inject_Z_mult.
    change (inject_Z 6) with (6 # 1). change (inject_Z 10) with (10 # 1).
    change (inject_Z 203) with (203 # 1). subst x. lra. }
  assert (Hz' : (6 * p <= 10 * n + 202)%Z) by lia.
  rewrite Zle_Qle, inject_Z_plus, !inject_Z_mult in Hz'.
  change (inject_Z 6) with (6 # 1) in Hz'.
  change (inject_Z 10) with (10 # 1) in Hz'.
  change (inject_Z 202) with (202 # 1) in Hz'. lra.
Qed.

Lemma percentage_is_nearest_witness :
  exists p,
    calculateTemperaturePercentage (Some (inject_Z 14)) = Some p
    /\ (inject_Z 14 + (20 # 1)) * (100 # 60) - (1 # 2) < inject_Z p
    /\ inject_Z p < (inject_Z 14 + (20 # 1)) * (100 # 60) + (1 # 2).
Proof.
  apply (percentage_is_nearest 14). lia.
Defined.

(** X15.  Every percentage from 0 to 100 is attained: the temperature
    -20 + 0.6 * k has the percentage k. *)
Theorem every_percentage_is_attained (k : Z) :
  (0 <= k <= 100)%Z ->
  calculateTemperaturePercentage (Some (inject_Z k * (3 # 5) - (20 # 1)))
  = Some k.
Proof.
  intros [Hk0 Hk100]. rewrite percentage_formula. f_equal.
  pose proof (clamp_cases (inject_Z k * (3 # 5) - (20 # 1))) as H.
  cbv zeta in H.
  set (c := Math_max (- (20 # 1))
              (Math_min (40 # 1) (inject_Z k * (3 # 5) - (20 # 1)))) in *.
  assert (H0 : 0 <= inject_Z k).
  { change 0 with (inject_Z 0). now rewrite <- Zle_Qle. }
  assert (H100 : inject_Z k <= 100 # 1).
  { change (100 # 1) with (inject_Z 100). now rewrite <- Zle_Qle. }
  assert (E : c == inject_Z k * (3 # 5) - (20 # 1)).
  { destruct H as [[? E1] | [[[? ?] E1] | [? E1]]]; rewrite E1; lra. }
  apply Qfloor_eq.
  - rewrite E. lra.
  - rewrite E, inject_Z_plus. change (inject_Z 1) with 1. lra.
Qed.

Lemma every_percentage_is_attained_witness :
  calculateTemperaturePercentage (Some (inject_Z 37 * (3 # 5) - (20 # 1)))
  = Some 37%Z.
Proof.
  apply (every_percentage_is_attained 37). lia.
Defined.

(** X16.  The ring always has two segments that are not negative and
    add up to 100, under the single label; there is no chart data
    exactly when there is no temperature. *)
Theorem chart_segments_fill_the_ring (temp : option Q) :
  (chartData (calculateTemperaturePercentage temp) = None <-> temp = None)
  /\ (forall chart,
         chartData (calculateTemperaturePercentage temp) = Some chart ->
         labels chart = ["현재 온도"%string]
         /\ exists dataset p q,
              datasets chart = [dataset]
              /\ data dataset = [p; q]
              /\ (0 <= p)%Z /\ (0 <= q)%Z /\ (p + q = 100)%Z).
Proof.
  destruct temp as [temp|].
  - destruct (percentage_in_range temp) as (p & -> & Hp). cbn [chartData].
    split; [split; discriminate |].
    intros chart [= <-]. cbn. split; [reflexivity |].
    eexists. exists p, (100 - p)%Z.
    split; [reflexivity |]. split; [reflexivity |]. lia.
  - cbn. split; [split; reflexivity |]. discriminate.
Qed.

End ChartMore.

(** * The two variants of the view side by side *)

Module VariantFacts.

(** X17.  The variant with the chart fetches by coordinates like the
    variant with the form: from states that agree, for every behaviour
    of the proxy, the two issue the same request under the same view
    and end in states that agree, the city field aside, which only the
    variant with the form has. *)
Theorem variants_fetch_alike (fetch : string -> HomePage.Fetched)
    (coordinate_text : Q -> string) (latitude longitude : Q)
    (s : HomePageChart.State) (typed : string)
    (earlier : list HomePage.Request) :
  exists typed',
    HomePage.fetchWeatherByCoords fetch coordinate_text latitude longitude
      {| HomePage.view := HomePageChart.with_city typed s;
         HomePage.requests := earlier |}
    = (HomePage.Normal tt,
       {| HomePage.view :=
            HomePageChart.with_city typed'
              (fst (HomePageChart.fetchWeatherByCoords fetch coordinate_text
                      latitude longitude s));
          HomePage.requests :=
            (earlier
               ++ map (fun r =>
                         {| HomePage.url := HomePageChart.url r;
                            HomePage.shown :=
                              HomePageChart.with_city typed
                                (HomePageChart.shown r) |})
                    (snd (HomePageChart.fetchWeatherByCoords fetch
                            coordinate_text latitude longitude s)))%list |}).
Proof.
  unfold HomePage.fetchWeatherByCoords, HomePageChart.fetchWeatherByCoords,
    HomePage.try_catch_finally, HomePage.bind, HomePage.await_fetch,
    HomePage.await_json, HomePage.setLoading, HomePage.setError,
    HomePage.setWeather, HomePage.setCity, HomePage.modify, HomePage.ret,
    HomePage.throw.
  cbv zeta.
  destruct (fetch ("/api/weather?lat=" ++ coordinate_text latitude
                     ++ "&lon=" ++ coordinate_text longitude))
    as [| [[|] [data|]]]; cbn; eexists; reflexivity.
Qed.

End VariantFacts.
